(** * AI-StockAnalyzer: the scoring engine of [stock_analyzer.py]

    A shallow embedding of [StockAnalyzer] (indicator engine, performance
    engine, the four scorers, target pricing, the recommendation table and
    the [analyze_stock] orchestrator) together with the part of
    [DatabaseManager] the orchestrator talks to.

    Conventions of the embedding:
    - a Python/NumPy float is a [float64]: an exact rational, an infinity or
      NaN.  Rounding, overflow and the sign of zero are not modelled;
      comparisons and arithmetic on NaN and the infinities follow IEEE 754,
      and a division by zero yields an infinity or NaN as NumPy's [float64]
      does (prices are read from a DataFrame);
    - a Python int that only ever holds a score is a [Z];
    - a dict read with [.get] is a [gmap string pyval]; a value is [None] or
      a number;
    - a breakdown dict, which is only written, is the list of its items in
      insertion order;
    - an exception is a [Raise] in the [result] monad;
    - stored price bars hold finite numbers;
    - [Series.std], [Series.quantile], [Series.ewm(..).mean()], [np.polyfit]
      and [np.sqrt(252)] are parameters of the development. *)

From Stdlib Require Import QArith Qabs Lqa ZArith Lia.
From stdpp Require Import base option gmap strings list.

Local Open Scope Q_scope.

(** ** Floating-point values *)

Inductive float64 : Type :=
  | Fin (q : Q)
  | Inf (neg : bool)
  | NaN.

Definition Qlt_bool (x y : Q) : bool := negb (Qle_bool y x).

Module F.

Definition lt (a b : float64) : bool :=
  match a, b with
  | Fin x, Fin y => Qlt_bool x y
  | Fin _, Inf n => negb n
  | Inf n, Fin _ => n
  | Inf n, Inf m => n && negb m
  | _, _ => false
  end.

Definition le (a b : float64) : bool :=
  match a, b with
  | Fin x, Fin y => Qle_bool x y
  | Fin _, Inf n => negb n
  | Inf n, Fin _ => n
  | Inf n, Inf m => n || negb m
  | _, _ => false
  end.

Definition gt (a b : float64) : bool := lt b a.
Definition ge (a b : float64) : bool := le b a.

(** [a == b] of Python: NaN is equal to nothing. *)
Definition eqb (a b : float64) : bool :=
  match a, b with
  | Fin x, Fin y => Qeq_bool x y
  | Inf n, Inf m => Bool.eqb n m
  | _, _ => false
  end.

Definition isnan (a : float64) : bool :=
  match a with NaN => true | _ => false end.

(** [pd.notna]. *)
Definition notna (a : float64) : bool := negb (isnan a).

Definition opp (a : float64) : float64 :=
  match a with
  | Fin x => Fin (- x)
  | Inf n => Inf (negb n)
  | NaN => NaN
  end.

Definition add (a b : float64) : float64 :=
  match a, b with
  | Fin x, Fin y => Fin (x + y)
  | Fin _, Inf n | Inf n, Fin _ => Inf n
  | Inf n, Inf m => if Bool.eqb n m then Inf n else NaN
  | _, _ => NaN
  end.

Definition sub (a b : float64) : float64 := add a (opp b).

Definition Qneg (x : Q) : bool := Qlt_bool x 0.
Definition Qzero (x : Q) : bool := Qeq_bool x 0.

Definition mul (a b : float64) : float64 :=
  match a, b with
  | Fin x, Fin y => Fin (x * y)
  | Fin x, Inf n | Inf n, Fin x =>
      if Qzero x then NaN else Inf (xorb n (Qneg x))
  | Inf n, Inf m => Inf (xorb n m)
  | _, _ => NaN
  end.

Definition div (a b : float64) : float64 :=
  match a, b with
  | Fin x, Fin y =>
      if Qzero y then (if Qzero x then NaN else Inf (Qneg x))
      else Fin (x / y)
  | Fin _, Inf _ => Fin 0
  | Inf n, Fin y => Inf (xorb n (Qneg y))
  | _, _ => NaN
  end.

Definition abs (a : float64) : float64 :=
  match a with
  | Fin x => Fin (Qabs x)
  | Inf _ => Inf false
  | NaN => NaN
  end.

(** The builtins [max(a, b)] and [min(a, b)]: the first argument is kept
    unless the second compares strictly beyond it. *)
Definition py_max (a b : float64) : float64 := if gt b a then b else a.
Definition py_min (a b : float64) : float64 := if lt b a then b else a.

(** [np.maximum]: NaN wins. *)
Definition np_maximum (a b : float64) : float64 :=
  if isnan a then a else if isnan b then b else if lt a b then b else a.

Definition of_nat (n : nat) : float64 := Fin (inject_Z (Z.of_nat n)).

Definition sum (xs : list float64) : float64 := foldr add (Fin 0) xs.

(** [np.mean] of a list, [Series.mean] of a column without NaN. *)
Definition mean (xs : list float64) : float64 :=
  div (sum xs) (of_nat (length xs)).

End F.

Declare Scope float_scope.
Delimit Scope float_scope with F.
Bind Scope float_scope with float64.
Infix "+" := F.add : float_scope.
Infix "-" := F.sub : float_scope.
Infix "*" := F.mul : float_scope.
Infix "/" := F.div : float_scope.
Infix "<?" := F.lt : float_scope.
Infix "<=?" := F.le : float_scope.
Infix ">?" := F.gt : float_scope.
Infix ">=?" := F.ge : float_scope.

Coercion Fin : Q >-> float64.

(** ** Python values, dicts and exceptions *)

Inductive pyval : Type :=
  | PNone
  | PNum (x : float64).

Inductive exn : Type :=
  | TypeError
  | AttributeError.

Inductive result (A : Type) : Type :=
  | Ok (a : A)
  | Raise (e : exn).
Arguments Ok {A} a.
Arguments Raise {A} e.

#[global] Instance result_ret : MRet result := fun A a => Ok a.
#[global] Instance result_bind : MBind result := fun A B f m =>
  match m with
  | Ok a => f a
  | Raise e => Raise e
  end.

(** [bool(v)]. *)
Definition truthy (v : pyval) : bool :=
  match v with
  | PNone => false
  | PNum x => negb (F.eqb x (Fin 0))
  end.

(** The number behind a value in an arithmetic or ordering context; [None]
    raises [TypeError]. *)
Definition num (v : pyval) : result float64 :=
  match v with
  | PNum x => Ok x
  | PNone => Raise TypeError
  end.

(** [d.get(k)] and [d.get(k, dflt)]. *)
Definition get (d : gmap string pyval) (k : string) : pyval :=
  default PNone (d !! k).
Definition get_or (d : gmap string pyval) (k : string) (dflt : pyval) : pyval :=
  default dflt (d !! k).

(** [bool(d)] of an optional dict: [None] and [{}] are falsy. *)
Definition dict_truthy (d : option (gmap string pyval)) : bool :=
  match d with
  | None => false
  | Some m => negb (bool_decide (m = ∅))
  end.

(** [d.get(k, dflt) if d else dflt]. *)
Definition get_if (d : option (gmap string pyval)) (k : string) (dflt : pyval)
  : pyval :=
  match d with
  | Some m => if dict_truthy d then get_or m k dflt else dflt
  | None => dflt
  end.

(** A breakdown entry: a fixed label, an f-string (its fixed text and the
    number it formats), the f-string [n/d text] or a sub-score. *)
Inductive bval : Type :=
  | BStr (s : string)
  | BFmt (s : string) (x : float64)
  | BCount (n d : Z) (s : string)
  | BInt (n : Z).

Definition breakdown : Type := list (string * bval).

Fixpoint bget (b : breakdown) (k : string) : option bval :=
  match b with
  | [] => None
  | (k', v) :: b' => if String.eqb k k' then Some v else bget b' k
  end.

(** ** Recommendation *)

Inductive Recommendation : Type :=
  | SELL | CONSIDER_SELLING | WEAK_HOLD | HOLD | MODERATE_BUY | BUY | STRONG_BUY.

Definition recommendation_text (r : Recommendation) : string :=
  match r with
  | STRONG_BUY => "STRONG BUY"
  | BUY => "BUY"
  | MODERATE_BUY => "MODERATE BUY"
  | HOLD => "HOLD"
  | WEAK_HOLD => "WEAK HOLD"
  | CONSIDER_SELLING => "CONSIDER SELLING"
  | SELL => "SELL"
  end.

(** Rank in the decision table's order, SELL lowest. *)
Definition rank (r : Recommendation) : Z :=
  match r with
  | SELL => 0
  | CONSIDER_SELLING => 1
  | WEAK_HOLD => 2
  | HOLD => 3
  | MODERATE_BUY => 4
  | BUY => 5
  | STRONG_BUY => 6
  end%Z.

Definition get_investment_recommendation
    (total_score risk_score : Z) (upside_potential : float64) : Recommendation :=
  if (80 <=? total_score)%Z && (risk_score <? 40)%Z
     && F.gt upside_potential (Fin 0.15) then STRONG_BUY
  else if (70 <=? total_score)%Z && (risk_score <? 50)%Z
     && F.gt upside_potential (Fin 0.10) then BUY
  else if (60 <=? total_score)%Z && (risk_score <? 60)%Z then MODERATE_BUY
  else if (50 <=? total_score)%Z && (risk_score <? 70)%Z then HOLD
  else if (40 <=? total_score)%Z then WEAK_HOLD
  else if (30 <=? total_score)%Z then CONSIDER_SELLING
  else SELL.

(** ** Helpers shared by the scorers *)

(** [d] when it is truthy ([if not d: return ...] otherwise). *)
Definition nonempty (d : option (gmap string pyval))
  : option (gmap string pyval) :=
  if dict_truthy d then d else None.

(** [v and p(v)] where [p] only orders [v] against constants: a truthy
    value is a number, so nothing is raised. *)
Definition and_num (v : pyval) (p : float64 → bool) : bool :=
  match v with
  | PNum x => truthy v && p x
  | PNone => false
  end.

(** [a > b] and [a < b] between two values; ordering [None] raises. *)
Definition gt_v (a b : pyval) : result bool :=
  x ← num a; y ← num b; mret (F.gt x y).
Definition lt_v (a b : pyval) : result bool :=
  x ← num a; y ← num b; mret (F.lt x y).

(** [v and e]: [e] is only evaluated when [v] is truthy. *)
Definition and_then (v : pyval) (e : result bool) : result bool :=
  if truthy v then e else mret false.

(** [lo <= x <= hi]. *)
Definition between (lo hi : Q) (x : float64) : bool :=
  F.le (Fin lo) x && F.le x (Fin hi).

Definition hundred (x : float64) : float64 := F.mul x (Fin 100).

(** ** Fundamental health, 0-40 *)

Definition pe_factor (pe : pyval) : Z * bval :=
  if and_num pe (between 5 25) then (8%Z, BStr "Excellent")
  else if and_num pe (fun x => F.lt x (Fin 5)) then (4%Z, BStr "Very Low (Risky)")
  else if and_num pe (fun x => F.le x (Fin 35)) then (3%Z, BStr "Acceptable")
  else (0%Z, BStr "High/Unknown").

Definition pb_factor (pb : pyval) : Z * bval :=
  if and_num pb (between 0.5 3) then (4%Z, BStr "Good")
  else if and_num pb (fun x => F.le x (Fin 5)) then (2%Z, BStr "Acceptable")
  else (0%Z, BStr "High/Unknown").

Definition peg_factor (peg : pyval) : Z * bval :=
  if and_num peg (between 0.5 1.5) then (3%Z, BStr "Excellent")
  else if and_num peg (fun x => F.le x (Fin 2)) then (1%Z, BStr "Acceptable")
  else (0%Z, BStr "High/Unknown").

Definition roe_factor (roe : pyval) : Z * bval :=
  if and_num roe (fun x => F.ge x (Fin 0.15)) then (8%Z, BStr "Excellent (>15%)")
  else if and_num roe (fun x => F.ge x (Fin 0.10)) then (5%Z, BStr "Good (>10%)")
  else if and_num roe (fun x => F.ge x (Fin 0.05)) then (2%Z, BStr "Acceptable (>5%)")
  else (0%Z, BStr "Low/Unknown").

Definition margin_factor (profit_margin : pyval) : Z * bval :=
  if and_num profit_margin (fun x => F.ge x (Fin 0.15))
  then (4%Z, BStr "Excellent (>15%)")
  else if and_num profit_margin (fun x => F.ge x (Fin 0.08))
  then (2%Z, BStr "Good (>8%)")
  else if and_num profit_margin (fun x => F.ge x (Fin 0.03))
  then (1%Z, BStr "Acceptable (>3%)")
  else (0%Z, BStr "Low/Unknown").

Definition growth_factor (revenue_growth : pyval) : Z * bval :=
  if and_num revenue_growth (fun x => F.ge x (Fin 0.10))
  then (3%Z, BStr "Strong (>10%)")
  else if and_num revenue_growth (fun x => F.ge x (Fin 0.05))
  then (2%Z, BStr "Good (>5%)")
  else if and_num revenue_growth (fun x => F.ge x (Fin 0))
  then (1%Z, BStr "Positive")
  else (0%Z, BStr "Declining/Unknown").

Definition debt_factor (debt_to_equity : pyval) : Z * bval :=
  match debt_to_equity with
  | PNum x =>
      if F.le x (Fin 0.3) then (5%Z, BStr "Low Debt (<30%)")
      else if F.le x (Fin 0.6) then (3%Z, BStr "Moderate Debt (<60%)")
      else if F.le x (Fin 1.0) then (1%Z, BStr "High Debt (<100%)")
      else (0%Z, BStr "Very High Debt")
  | PNone => (0%Z, BStr "Unknown")
  end.

Definition dividend_factor (dividend_yield : pyval) : Z * bval :=
  match dividend_yield with
  | PNum x =>
      if truthy dividend_yield && between 0.02 0.06 x
      then (3%Z, BFmt "Healthy Yield" (hundred x))
      else if truthy dividend_yield && F.le x (Fin 0.08)
      then (2%Z, BFmt "Good Yield" (hundred x))
      else if truthy dividend_yield && F.gt x (Fin 0)
      then (1%Z, BFmt "Dividend Paying" (hundred x))
      else (0%Z, BStr "No Dividend")
  | PNone => (0%Z, BStr "No Dividend")
  end.

Definition payout_factor (payout_ratio : pyval) : Z * bval :=
  if and_num payout_ratio (between 0.3 0.6) then (2%Z, BStr "Sustainable Payout")
  else if and_num payout_ratio (fun x => F.le x (Fin 0.8))
  then (1%Z, BStr "Moderate Payout")
  else if truthy payout_ratio then (0%Z, BStr "High Payout Risk")
  else (0%Z, BStr "Unknown").

Definition score_fundamental_health (fundamentals : option (gmap string pyval))
  : Z * breakdown :=
  match nonempty fundamentals with
  | None => (0%Z, [])
  | Some f =>
      let max_score := 40%Z in
      (* Valuation metrics *)
      let pe := pe_factor (get f "pe_ratio") in
      let pb := pb_factor (get f "price_to_book") in
      let peg := peg_factor (get f "peg_ratio") in
      let valuation_score := (pe.1 + pb.1 + peg.1)%Z in
      (* Profitability *)
      let roe := roe_factor (get f "roe") in
      let margin := margin_factor (get f "profit_margin") in
      let growth := growth_factor (get f "revenue_growth") in
      let profitability_score := (roe.1 + margin.1 + growth.1)%Z in
      (* Financial stability *)
      let debt := debt_factor (get f "debt_to_equity") in
      let dividend := dividend_factor (get f "dividend_yield") in
      let payout := payout_factor (get f "payout_ratio") in
      let stability_score := (debt.1 + dividend.1 + payout.1)%Z in
      let score := (valuation_score + profitability_score + stability_score)%Z in
      (Z.min score max_score,
       [ ("pe_status", pe.2); ("pb_status", pb.2); ("peg_status", peg.2);
         ("valuation_score", BInt valuation_score);
         ("roe_status", roe.2); ("margin_status", margin.2);
         ("growth_status", growth.2);
         ("profitability_score", BInt profitability_score);
         ("debt_status", debt.2); ("dividend_status", dividend.2);
         ("payout_status", payout.2);
         ("stability_score", BInt stability_score) ])
  end.

(** ** Technical strength, 0-30 *)

Definition sma_20_factor (current sma_20 : pyval) : result (Z * bval) :=
  above ← and_then sma_20 (gt_v current sma_20);
  mret (if above : bool then (3%Z, BStr "Above SMA20")
        else (0%Z, BStr "Below SMA20")).

Definition sma_50_factor (current sma_50 : pyval) : result (Z * bval) :=
  above ← and_then sma_50 (gt_v current sma_50);
  mret (if above : bool then (4%Z, BStr "Above SMA50")
        else (0%Z, BStr "Below SMA50")).

Definition sma_200_factor (current sma_200 : pyval) : result (Z * bval) :=
  above ← and_then sma_200 (gt_v current sma_200);
  mret (if above : bool then (5%Z, BStr "Above SMA200 (Bull Market)")
        else if truthy sma_200 then (0%Z, BStr "Below SMA200 (Bear Market)")
        else (0%Z, BStr "Insufficient Data")).

Definition ma_alignment_factor (sma_20 sma_50 : pyval) : result (Z * bval) :=
  aligned ← and_then sma_20 (and_then sma_50 (gt_v sma_20 sma_50));
  mret (if aligned : bool then (3%Z, BStr "Bullish Alignment")
        else (0%Z, BStr "Bearish/Neutral")).

Definition rsi_factor (rsi : pyval) : Z * bval :=
  match rsi with
  | PNum x =>
      if truthy rsi then
        if between 40 60 x then (3%Z, BFmt "Neutral Zone" x)
        else if between 30 70 x then (2%Z, BFmt "Normal Range" x)
        else if F.le x (Fin 30) then (1%Z, BFmt "Oversold" x)
        else if F.ge x (Fin 70) then (0%Z, BFmt "Overbought" x)
        else (0%Z, BFmt "RSI:" x)
      else (0%Z, BStr "Unknown")
  | PNone => (0%Z, BStr "Unknown")
  end.

Definition macd_factor (macd macd_signal : pyval) : result (Z * bval) :=
  bullish ← gt_v macd macd_signal;
  mret (if bullish : bool then (2%Z, BStr "Bullish Signal")
        else (0%Z, BStr "Bearish Signal")).

Definition volume_factor (volume_ratio : pyval) : result (Z * bval) :=
  v ← num volume_ratio;
  mret (if F.gt v (Fin 1.5) then (2%Z, BStr "High Volume (Strong Interest)")
        else if F.gt v (Fin 1.2) then (1%Z, BStr "Above Average Volume")
        else (0%Z, BStr "Normal Volume")).

Definition bb_factor (bb_pos : pyval) : Z * bval :=
  match bb_pos with
  | PNum x =>
      if truthy bb_pos then
        if between 0.3 0.7 x then (3%Z, BStr "Middle of Bands (Stable)")
        else if between 0.1 0.9 x then (2%Z, BStr "Normal Range")
        else if F.le x (Fin 0.2)
        then (1%Z, BStr "Near Lower Band (Potential Bounce)")
        else (0%Z, BStr "Near Upper Band (Resistance)")
      else (0%Z, BStr "Unknown")
  | PNone => (0%Z, BStr "Unknown")
  end.

(** The position analysis block of [score_technical_strength]. *)
Definition position_factor (week_52_pos : pyval) : Z * bval :=
  match week_52_pos with
  | PNum x =>
      if truthy week_52_pos then
        if between 0.5 0.8 x
        then (5%Z, BStr "Strong Position (50-80% of range)")
        else if between 0.3 0.9 x then (3%Z, BStr "Good Position")
        else if F.le x (Fin 0.3)
        then (2%Z, BStr "Near 52-week Low (Value Opportunity)")
        else (1%Z, BStr "Near 52-week High (Resistance)")
      else (0%Z, BStr "Unknown")
  | PNone => (0%Z, BStr "Unknown")
  end.

Definition score_technical_strength (technical : option (gmap string pyval))
  : result (Z * breakdown) :=
  match nonempty technical with
  | None => mret (0%Z, [])
  | Some t =>
      let max_score := 30%Z in
      (* Trend analysis *)
      let current := get_or t "current_price" (PNum (Fin 0)) in
      let sma_20 := get t "sma_20" in
      let sma_50 := get t "sma_50" in
      let sma_200 := get t "sma_200" in
      s20 ← sma_20_factor current sma_20;
      s50 ← sma_50_factor current sma_50;
      s200 ← sma_200_factor current sma_200;
      align ← ma_alignment_factor sma_20 sma_50;
      let trend_score := (s20.1 + s50.1 + s200.1 + align.1)%Z in
      (* Momentum indicators *)
      let rsi := rsi_factor (get t "rsi") in
      macd ← macd_factor (get_or t "macd" (PNum (Fin 0)))
                         (get_or t "macd_signal" (PNum (Fin 0)));
      volume ← volume_factor (get_or t "volume_ratio" (PNum (Fin 1)));
      let bb := bb_factor (get t "bb_position") in
      let momentum_score := (rsi.1 + macd.1 + volume.1 + bb.1)%Z in
      (* Position analysis *)
      let position := position_factor (get t "52_week_position") in
      let position_score := position.1 in
      let score := (trend_score + momentum_score + position_score)%Z in
      mret (Z.min score max_score,
            [ ("sma_20_status", s20.2); ("sma_50_status", s50.2);
              ("sma_200_status", s200.2); ("ma_alignment", align.2);
              ("trend_score", BInt trend_score);
              ("rsi_status", rsi.2); ("macd_status", macd.2);
              ("volume_status", volume.2); ("bb_status", bb.2);
              ("momentum_score", BInt momentum_score);
              ("52_week_status", position.2);
              ("position_score", BInt position_score) ])
  end.

(** ** Momentum and quality, 0-30 *)

(** [[r for r in rs if r is not None]]. *)
Fixpoint not_none (rs : list pyval) : list float64 :=
  match rs with
  | [] => []
  | PNum x :: rs' => x :: not_none rs'
  | PNone :: rs' => not_none rs'
  end.

(** [sum([r > 0 for r in returns_list])]. *)
Fixpoint count_positive (rs : list float64) : Z :=
  match rs with
  | [] => 0%Z
  | r :: rs' => ((if F.gt r (Fin 0) then 1 else 0) + count_positive rs')%Z
  end.

Definition perf_1m_factor (ret_1m : pyval) : Z * bval :=
  match ret_1m with
  | PNum x =>
      if truthy ret_1m && F.gt x (Fin 0.05) then (3%Z, BFmt "Strong" (hundred x))
      else if truthy ret_1m && F.gt x (Fin 0)
      then (1%Z, BFmt "Positive" (hundred x))
      else if truthy ret_1m then (0%Z, BFmt "Negative" (hundred x))
      else (0%Z, BStr "Unknown")
  | PNone => (0%Z, BStr "Unknown")
  end.

Definition perf_1y_factor (ret_1y : pyval) : Z * bval :=
  match ret_1y with
  | PNum x =>
      if truthy ret_1y && F.gt x (Fin 0.15)
      then (4%Z, BFmt "Excellent" (hundred x))
      else if truthy ret_1y && F.gt x (Fin 0.05)
      then (2%Z, BFmt "Good" (hundred x))
      else if truthy ret_1y && F.gt x (Fin 0)
      then (1%Z, BFmt "Positive" (hundred x))
      else if truthy ret_1y then (0%Z, BFmt "Negative" (hundred x))
      else (0%Z, BStr "Unknown")
  | PNone => (0%Z, BStr "Unknown")
  end.

Definition sharpe_factor (sharpe : pyval) : result (Z * bval) :=
  s ← num sharpe;
  mret (if F.gt s (Fin 1.0) then (6%Z, BFmt "Excellent" s)
        else if F.gt s (Fin 0.5) then (4%Z, BFmt "Good" s)
        else if F.gt s (Fin 0) then (2%Z, BFmt "Positive" s)
        else (0%Z, BFmt "Poor" s)).

Definition sortino_factor (sortino : pyval) : result (Z * bval) :=
  s ← num sortino;
  mret (if F.gt s (Fin 1.0) then (2%Z, BFmt "Excellent" s)
        else if F.gt s (Fin 0.5) then (1%Z, BFmt "Good" s)
        else (0%Z, BFmt "Needs Improvement" s)).

Definition volatility_factor (volatility : pyval) : result (Z * bval) :=
  v ← num volatility;
  mret (if F.lt v (Fin 0.2) then (2%Z, BFmt "Low Risk" (hundred v))
        else if F.lt v (Fin 0.4) then (1%Z, BFmt "Moderate Risk" (hundred v))
        else (0%Z, BFmt "High Risk" (hundred v))).

Definition drawdown_factor (max_dd : pyval) : result (Z * bval) :=
  d ← num max_dd;
  mret (if F.gt d (Fin (-0.1)) then (3%Z, BFmt "Excellent (<10%)" (hundred d))
        else if F.gt d (Fin (-0.2)) then (2%Z, BFmt "Good (<20%)" (hundred d))
        else if F.gt d (Fin (-0.3))
        then (1%Z, BFmt "Acceptable (<30%)" (hundred d))
        else (0%Z, BFmt "High Drawdown" (hundred d))).

Definition score_momentum_quality (performance : option (gmap string pyval))
  : result (Z * breakdown) :=
  match nonempty performance with
  | None => mret (0%Z, [])
  | Some p =>
      let max_score := 30%Z in
      (* Recent performance *)
      let ret_1w := get_or p "return_1W" (PNum (Fin 0)) in
      let ret_1m := get_or p "return_1M" (PNum (Fin 0)) in
      let ret_3m := get_or p "return_3M" (PNum (Fin 0)) in
      let ret_1y := get_or p "return_1Y" (PNum (Fin 0)) in
      let returns_list := not_none [ret_1w; ret_1m; ret_3m; ret_1y] in
      let positive_periods := count_positive returns_list in
      let p1m := perf_1m_factor ret_1m in
      let p1y := perf_1y_factor ret_1y in
      let performance_score := (positive_periods * 2 + p1m.1 + p1y.1)%Z in
      (* Risk-adjusted returns *)
      sharpe ← sharpe_factor (get_or p "sharpe_ratio" (PNum (Fin 0)));
      sortino ← sortino_factor (get_or p "sortino_ratio" (PNum (Fin 0)));
      volatility ← volatility_factor (get_or p "volatility" (PNum (Fin 0)));
      let risk_score := (sharpe.1 + sortino.1 + volatility.1)%Z in
      (* Drawdown management *)
      drawdown ← drawdown_factor (get_or p "max_drawdown" (PNum (Fin 0)));
      let drawdown_score := drawdown.1 in
      let score := (performance_score + risk_score + drawdown_score)%Z in
      mret (Z.min score max_score,
            [ ("positive_periods",
               BCount positive_periods (Z.of_nat (length returns_list))
                      "periods positive");
              ("1m_performance", p1m.2); ("1y_performance", p1y.2);
              ("performance_score", BInt performance_score);
              ("sharpe_status", sharpe.2); ("sortino_status", sortino.2);
              ("volatility_status", volatility.2);
              ("risk_score", BInt risk_score);
              ("drawdown_status", drawdown.2);
              ("drawdown_score", BInt drawdown_score) ])
  end.

(** ** Risk score, 0-100 *)

Definition volatility_risk (volatility : pyval) : result Z :=
  v ← num volatility;
  mret (if F.gt v (Fin 0.6) then 30
        else if F.gt v (Fin 0.4) then 20
        else if F.gt v (Fin 0.25) then 10
        else 5)%Z.

Definition beta_risk (beta : pyval) : result Z :=
  b ← num beta;
  mret (if F.gt b (Fin 1.5) then 20
        else if F.gt b (Fin 1.2) then 15
        else if F.gt b (Fin 0.8) then 5
        else 10)%Z.

Definition leverage_risk (debt_to_equity : pyval) : Z :=
  match debt_to_equity with
  | PNone => 10
  | PNum d =>
      if F.gt d (Fin 1.5) then 25
      else if F.gt d (Fin 1.0) then 15
      else if F.gt d (Fin 0.5) then 5
      else 0
  end%Z.

Definition technical_risk (rsi bb_position : pyval) : result Z :=
  r ← num rsi;
  let rsi_part :=
    (if F.gt r (Fin 80) || F.lt r (Fin 20) then 8
     else if F.gt r (Fin 70) || F.lt r (Fin 30) then 4
     else 0)%Z in
  b ← num bb_position;
  let bb_part :=
    (if F.gt b (Fin 0.9) || F.lt b (Fin 0.1) then 7
     else if F.gt b (Fin 0.8) || F.lt b (Fin 0.2) then 3
     else 0)%Z in
  mret (rsi_part + bb_part)%Z.

Definition drawdown_risk (max_drawdown : pyval) : result Z :=
  d ← num max_drawdown;
  mret (if F.lt d (Fin (-0.4)) then 10
        else if F.lt d (Fin (-0.3)) then 8
        else if F.lt d (Fin (-0.2)) then 5
        else if F.lt d (Fin (-0.1)) then 2
        else 0)%Z.

(** [performance.get] on [None] raises [AttributeError]. *)
Definition attr_get (d : option (gmap string pyval)) (k : string) (dflt : pyval)
  : result pyval :=
  match d with
  | Some m => mret (get_or m k dflt)
  | None => Raise AttributeError
  end.

Definition calculate_risk_score
    (technical performance fundamentals : option (gmap string pyval))
  : result (Z * breakdown) :=
  (* Volatility risk *)
  volatility ← attr_get performance "volatility" (PNum (Fin 0.3));
  vol_risk ← volatility_risk volatility;
  (* Beta risk *)
  let beta := get_if fundamentals "beta" (PNum (Fin 1.0)) in
  beta_risk ← beta_risk beta;
  (* Financial leverage risk *)
  let debt_to_equity := get_if fundamentals "debt_to_equity" PNone in
  let leverage_risk := leverage_risk debt_to_equity in
  (* Technical risk *)
  let rsi := get_if technical "rsi" (PNum (Fin 50)) in
  let bb_position := get_if technical "bb_position" (PNum (Fin 0.5)) in
  tech_risk ← technical_risk rsi bb_position;
  (* Drawdown risk *)
  let max_drawdown := get_if performance "max_drawdown" (PNum (Fin 0)) in
  dd_risk ← drawdown_risk max_drawdown;
  let risk_score :=
    (vol_risk + beta_risk + leverage_risk + tech_risk + dd_risk)%Z in
  let risk_percentage := Z.min 100 risk_score in
  mret (risk_percentage,
        [ ("volatility_risk", BInt vol_risk); ("beta_risk", BInt beta_risk);
          ("leverage_risk", BInt leverage_risk);
          ("technical_risk", BInt tech_risk);
          ("drawdown_risk", BInt dd_risk) ]).

(** ** Target pricing *)

Record Pricing : Type := {
  current_price : float64;
  conservative_buy_price : float64;
  aggressive_buy_price : float64;
  target_price : float64;
  upside_potential : float64;
  support_level : pyval;
  resistance_level : pyval }.

(** Method 1: the P/E based target, when P/E and earnings growth are both
    truthy. *)
Definition pe_method (fundamentals : option (gmap string pyval))
    (current_price : float64) : list float64 :=
  match nonempty fundamentals with
  | Some f =>
      match get f "pe_ratio", get f "earnings_growth" with
      | PNum current_pe, PNum growth_rate =>
          if truthy (PNum current_pe) && truthy (PNum growth_rate) then
            let fair_pe :=
              F.py_min (F.py_max (growth_rate * Fin 100 * Fin 0.8)%F (Fin 10))
                       (Fin 25) in
            let estimated_eps := (current_price / current_pe)%F in
            [ (estimated_eps * fair_pe)%F ]
          else []
      | _, _ => []
      end
  | None => []
  end.

(** Method 2: the resistance level, when above the current price. *)
Definition resistance_method (technical : option (gmap string pyval))
    (current_price : float64) : list float64 :=
  match nonempty technical with
  | Some t =>
      match get t "resistance_level" with
      | PNum resistance =>
          if truthy (PNum resistance) && F.gt resistance current_price
          then [ resistance ] else []
      | PNone => []
      end
  | None => []
  end.

(** Method 3: the 52-week high adjusted for momentum. *)
Definition high_method (technical performance : option (gmap string pyval))
  : result (list float64) :=
  match nonempty technical with
  | Some t =>
      match get t "52_week_high" with
      | PNum week_52_high =>
          if truthy (PNum week_52_high) then
            momentum_score ←
              num (get_if performance "momentum_score" (PNum (Fin 50)));
            mret [ if F.gt momentum_score (Fin 70)
                   then (week_52_high * Fin 1.1)%F
                   else if F.gt momentum_score (Fin 50) then week_52_high
                   else (week_52_high * Fin 0.9)%F ]
          else mret []
      | PNone => mret []
      end
  | None => mret []
  end.

Definition calculate_target_pricing
    (fundamentals technical performance : option (gmap string pyval))
  : result Pricing :=
  current_price ← num (get_if technical "current_price" (PNum (Fin 100)));
  (* Conservative buy price *)
  support_level ←
    num (get_if technical "support_level" (PNum (current_price * Fin 0.9)%F));
  let conservative_buy := F.py_min (current_price * Fin 0.85)%F support_level in
  (* Aggressive buy price *)
  let aggressive_buy := (current_price * Fin 0.90)%F in
  (* Target price calculation *)
  let m1 := pe_method fundamentals current_price in
  let m2 := resistance_method technical current_price in
  m3 ← high_method technical performance;
  let target_methods := m1 ++ m2 ++ m3 in
  let target_price :=
    match target_methods with
    | _ :: _ => F.mean target_methods
    | [] => (current_price * Fin 1.15)%F
    end in
  let target_price :=
    F.py_max (current_price * Fin 1.05)%F
             (F.py_min target_price (current_price * Fin 2.0)%F) in
  let upside_potential := ((target_price - current_price) / current_price)%F in
  mret {| current_price := current_price;
          conservative_buy_price := conservative_buy;
          aggressive_buy_price := aggressive_buy;
          target_price := target_price;
          upside_potential := upside_potential;
          support_level :=
            match nonempty technical with
            | Some t => get t "support_level"
            | None => PNum (current_price * Fin 0.95)%F
            end;
          resistance_level :=
            match nonempty technical with
            | Some t => get t "resistance_level"
            | None => PNum (current_price * Fin 1.05)%F
            end |}.

(** ** Price bars and DataFrame columns *)

Record bar : Type := {
  date : Z;
  open : Q;
  high : Q;
  low : Q;
  close : Q;
  adj_close : Q;
  volume : Q }.

(** [df.sort_values('date')], as a stable insertion sort (dates are unique
    per symbol). *)
Fixpoint insert_by_date (b : bar) (df : list bar) : list bar :=
  match df with
  | [] => [b]
  | b' :: df' =>
      if (date b <? date b')%Z then b :: b' :: df'
      else b' :: insert_by_date b df'
  end.

Definition sort_values_date (df : list bar) : list bar :=
  foldr insert_by_date [] (reverse df).

Definition column (f : bar → Q) (df : list bar) : list float64 :=
  map (fun b => Fin (f b)) df.

(** [s.iloc[-1]]. *)
Definition iloc_last (xs : list float64) : float64 := default NaN (last xs).

(** [s.tail(n)]. *)
Definition tail_rows {A : Type} (n : nat) (xs : list A) : list A :=
  drop (length xs - n) xs.

(** One row of [s.rolling(window=w).stat()]: NaN while fewer than [w] rows
    are available or when the window holds a NaN, the statistic of the
    trailing [w] rows otherwise. *)
Definition window_stat (w : nat) (stat : list float64 → float64)
    (rows : list float64) : float64 :=
  let win := tail_rows w rows in
  if (length rows <? w)%nat || existsb F.isnan win then NaN else stat win.

Definition rolling (w : nat) (stat : list float64 → float64)
    (xs : list float64) : list float64 :=
  map (fun i => window_stat w stat (take (S i) xs)) (seq 0 (length xs)).

(** [s.rolling(window=5, center=True).stat()]: row [i] looks at rows
    [i-2 .. i+2]. *)
Definition rolling_center5 (stat : list float64 → float64)
    (xs : list float64) : list float64 :=
  map (fun i =>
         if (2 <=? i)%nat && (i + 2 <? length xs)%nat
         then window_stat 5 stat (take 5 (drop (i - 2) xs))
         else NaN)
      (seq 0 (length xs)).

(** [s.shift(1)], [s.diff()] and [s.pct_change()]. *)
Definition shift1 (xs : list float64) : list float64 :=
  match xs with
  | [] => []
  | _ :: _ => NaN :: removelast xs
  end.

Definition diff (xs : list float64) : list float64 :=
  zip_with F.sub xs (shift1 xs).

Definition pct_change (xs : list float64) : list float64 :=
  zip_with (fun x p => (x / p - Fin 1)%F) xs (shift1 xs).

(** [s.dropna()]. *)
Definition dropna (xs : list float64) : list float64 :=
  filter (fun x => F.notna x = true) xs.

(** [s.max()] and [s.min()], which skip NaN. *)
Definition series_max (xs : list float64) : float64 :=
  foldr (fun x acc =>
           if F.isnan acc then x
           else if F.isnan x then acc
           else if F.lt acc x then x else acc) NaN xs.

Definition series_min (xs : list float64) : float64 :=
  foldr (fun x acc =>
           if F.isnan acc then x
           else if F.isnan x then acc
           else if F.lt x acc then x else acc) NaN xs.

(** [v if pd.notna(v) else dflt]. *)
Definition notna_or (v dflt : float64) : float64 :=
  if F.notna v then v else dflt.

(** The numerical routines of pandas and NumPy that are not rational
    functions of their input, or that no property below depends on. *)
Record numerics : Type := {
  (** [Series.std()]: sample standard deviation, NaN skipped. *)
  series_std : list float64 → float64;
  (** [Series.quantile(q)]. *)
  series_quantile : Q → list float64 → float64;
  (** [Series.ewm(span=n).mean()]. *)
  ewm_mean : nat → list float64 → list float64;
  (** [np.polyfit(range(len(y)), y, 1)[0]]. *)
  polyfit_slope : list float64 → float64;
  (** [np.sqrt(252)]. *)
  sqrt_252 : float64 }.

(** ** Storage *)

Module Company.
Record t : Type := {
  name : option string;
  sector : option string }.
End Company.

(** A row of the [fundamentals] table; a NULL column is [PNone]. *)
Module Fundamentals.
Record t : Type := {
  date : Z;
  pe_ratio : pyval;
  forward_pe : pyval;
  peg_ratio : pyval;
  price_to_book : pyval;
  debt_to_equity : pyval;
  roe : pyval;
  profit_margin : pyval;
  revenue_growth : pyval;
  earnings_growth : pyval;
  dividend_yield : pyval;
  payout_ratio : pyval;
  beta : pyval;
  current_ratio : pyval;
  quick_ratio : pyval }.

(** [dict(zip(columns, row))]: every column is a key.  The [symbol] and
    [date] keys, which the analyzer never reads, are left out. *)
Definition to_dict (r : t) : gmap string pyval :=
  list_to_map
    [ ("pe_ratio", pe_ratio r); ("forward_pe", forward_pe r);
      ("peg_ratio", peg_ratio r); ("price_to_book", price_to_book r);
      ("debt_to_equity", debt_to_equity r); ("roe", roe r);
      ("profit_margin", profit_margin r);
      ("revenue_growth", revenue_growth r);
      ("earnings_growth", earnings_growth r);
      ("dividend_yield", dividend_yield r);
      ("payout_ratio", payout_ratio r); ("beta", beta r);
      ("current_ratio", current_ratio r); ("quick_ratio", quick_ratio r) ].
End Fundamentals.

(** A row of the [analysis_results] table, without its key
    [(symbol, analysis_date)]. *)
Module ResultRow.
Record t : Type := {
  total_score : Z;
  fundamental_score : Z;
  technical_score : Z;
  momentum_score : Z;
  risk_score : Z;
  recommendation : Recommendation;
  current_price : float64;
  target_price : float64;
  conservative_buy_price : float64;
  aggressive_buy_price : float64;
  upside_potential : float64;
  risk_percentage : float64 }.
End ResultRow.

Record database : Type := {
  companies : gmap string Company.t;
  daily_prices : gmap string (list bar);
  fundamentals_table : gmap string (list Fundamentals.t);
  analysis_results : gmap (string * Z) ResultRow.t }.

(** [SELECT ... WHERE symbol = ? ORDER BY date DESC LIMIT ?], sorted back to
    ascending dates; [None] when there is no row. *)
Definition get_price_data (db : database) (symbol : string) (days : nat)
  : option (list bar) :=
  let rows := default [] (daily_prices db !! symbol) in
  let df := take days (reverse (sort_values_date rows)) in
  match df with
  | [] => None
  | _ :: _ => Some (sort_values_date df)
  end.

(** [SELECT * FROM fundamentals WHERE symbol = ? ORDER BY date DESC
    LIMIT 1]. *)
Definition latest_row (rows : list Fundamentals.t) : option Fundamentals.t :=
  foldl (fun best r =>
           match best with
           | Some b =>
               if (Fundamentals.date b <? Fundamentals.date r)%Z
               then Some r else best
           | None => Some r
           end) None rows.

Definition get_latest_fundamentals (db : database) (symbol : string)
  : option (gmap string pyval) :=
  Fundamentals.to_dict <$>
    latest_row (default [] (fundamentals_table db !! symbol)).

Definition get_company (db : database) (symbol : string) : option Company.t :=
  companies db !! symbol.

(** ** Analysis results *)

Record breakdowns_t : Type := {
  bd_fundamental : breakdown;
  bd_technical : breakdown;
  bd_momentum : breakdown;
  bd_risk : breakdown }.

Record analysis_result : Type := {
  symbol : string;
  company_name : option string;
  sector : option string;
  total_score : Z;
  fundamental_score : Z;
  technical_score : Z;
  momentum_score : Z;
  risk_score : Z;
  risk_percentage : Z;
  recommendation : Recommendation;
  pricing : Pricing;
  fundamentals : gmap string pyval;
  technical : gmap string pyval;
  performance : gmap string pyval;
  breakdowns : breakdowns_t;
  analysis_date : Z }.

(** [int(x)] of a score, which is an integer already. *)
Definition py_int (x : Z) : Z := x.

(** [INSERT OR REPLACE INTO analysis_results ...] under the key
    [(symbol, datetime.now())]. *)
Definition save_analysis_result (now : Z) (r : analysis_result)
    (db : database) : database :=
  let row :=
    {| ResultRow.total_score := py_int (total_score r);
       ResultRow.fundamental_score := py_int (fundamental_score r);
       ResultRow.technical_score := py_int (technical_score r);
       ResultRow.momentum_score := py_int (momentum_score r);
       ResultRow.risk_score := py_int (risk_score r);
       ResultRow.recommendation := recommendation r;
       ResultRow.current_price := current_price (pricing r);
       ResultRow.target_price := target_price (pricing r);
       ResultRow.conservative_buy_price := conservative_buy_price (pricing r);
       ResultRow.aggressive_buy_price := aggressive_buy_price (pricing r);
       ResultRow.upside_potential := upside_potential (pricing r);
       ResultRow.risk_percentage := Fin (inject_Z (risk_percentage r)) |} in
  {| companies := companies db;
     daily_prices := daily_prices db;
     fundamentals_table := fundamentals_table db;
     analysis_results := <[ (symbol r, now) := row ]> (analysis_results db) |}.

(** The scoring half of [analyze_stock]: from the four score calls to the
    compiled result.  Everything here sits inside the [try]. *)
Definition score_and_compile (now : Z) (symbol : string)
    (company_info : option Company.t)
    (fundamentals : option (gmap string pyval))
    (technical performance : gmap string pyval) : result analysis_result :=
  (* Calculate scores *)
  let '(fundamental_score, fund_breakdown) :=
    score_fundamental_health fundamentals in
  '(technical_score, tech_breakdown) ←
    score_technical_strength (Some technical);
  '(momentum_score, momentum_breakdown) ←
    score_momentum_quality (Some performance);
  '(risk_score, risk_breakdown) ←
    calculate_risk_score (Some technical) (Some performance) fundamentals;
  (* Calculate total score *)
  let total_score :=
    py_int (fundamental_score + technical_score + momentum_score) in
  (* Calculate pricing *)
  pricing ←
    calculate_target_pricing fundamentals (Some technical) (Some performance);
  (* Get recommendation *)
  let recommendation :=
    get_investment_recommendation total_score risk_score
      (upside_potential pricing) in
  mret {| symbol := symbol;
          company_name :=
            match company_info with
            | Some c => Company.name c
            | None => Some symbol
            end;
          sector :=
            match company_info with
            | Some c => Company.sector c
            | None => Some "Unknown"
            end;
          total_score := total_score;
          fundamental_score := fundamental_score;
          technical_score := technical_score;
          momentum_score := momentum_score;
          risk_score := risk_score;
          risk_percentage := risk_score;
          recommendation := recommendation;
          pricing := pricing;
          fundamentals := default ∅ fundamentals;
          technical := technical;
          performance := performance;
          breakdowns :=
            {| bd_fundamental := fund_breakdown;
               bd_technical := tech_breakdown;
               bd_momentum := momentum_breakdown;
               bd_risk := risk_breakdown |};
          analysis_date := now |}.

Section Engines.

Variable K : numerics.

(** ** Indicator engine *)

Definition _get_default_technical_indicators (df : option (list bar))
  : gmap string pyval :=
  let current_price :=
    match df with
    | Some (_ :: _ as rows) => iloc_last (column close rows)
    | _ => Fin 100
    end in
  list_to_map
    [ ("current_price", PNum current_price);
      ("sma_20", PNum current_price);
      ("sma_50", PNum current_price);
      ("sma_200", PNone);
      ("rsi", PNum (Fin 50));
      ("bb_position", PNum (Fin 0.5));
      ("bb_upper", PNum (current_price * Fin 1.1)%F);
      ("bb_lower", PNum (current_price * Fin 0.9)%F);
      ("macd", PNum (Fin 0));
      ("macd_signal", PNum (Fin 0));
      ("macd_histogram", PNum (Fin 0));
      ("volume_ratio", PNum (Fin 1));
      ("atr", PNum (current_price * Fin 0.02)%F);
      ("52_week_high", PNum current_price);
      ("52_week_low", PNum current_price);
      ("52_week_position", PNum (Fin 0.5));
      ("trend_strength", PNum (Fin 0));
      ("support_level", PNum (current_price * Fin 0.95)%F);
      ("resistance_level", PNum (current_price * Fin 1.05)%F);
      ("volatility", PNum (Fin 0.3)) ].

Definition _calculate_trend_strength (df : list bar) : float64 :=
  if (length df <? 20)%nat then Fin 0
  else
    let recent_data := tail_rows 20 df in
    let y := column close recent_data in
    if (length y <? 2)%nat then Fin 0
    else
      let slope := polyfit_slope K y in
      let price_range := (series_max y - series_min y)%F in
      if F.gt price_range (Fin 0) then
        let trend_strength := (slope * F.of_nat (length y) / price_range)%F in
        F.py_max (Fin (-1)) (F.py_min (Fin 1) trend_strength)
      else Fin 0.

(** [rolled[rolled == level]]: the rows whose centred extreme is the row's
    own level. *)
Definition local_extremes (rolled level : list float64) : list float64 :=
  map fst (filter (fun p => F.eqb p.1 p.2 = true) (zip rolled level)).

Definition _calculate_support_resistance (df : list bar)
  : float64 * float64 :=
  let current_price := iloc_last (column close df) in
  if (length df <? 20)%nat
  then ((current_price * Fin 0.95)%F, (current_price * Fin 1.05)%F)
  else
    let period := Nat.min 50 (length df) in
    let recent_data := tail_rows period df in
    let highs := rolling_center5 series_max (column high recent_data) in
    let lows := rolling_center5 series_min (column low recent_data) in
    let resistance_levels :=
      dropna (local_extremes highs (column high recent_data)) in
    let support_levels :=
      dropna (local_extremes lows (column low recent_data)) in
    let above_current :=
      filter (fun l => F.gt l current_price = true) resistance_levels in
    let resistance :=
      match above_current with
      | _ :: _ => series_min above_current
      | [] => (current_price * Fin 1.05)%F
      end in
    let below_current :=
      filter (fun l => F.lt l current_price = true) support_levels in
    let support :=
      match below_current with
      | _ :: _ => series_max below_current
      | [] => (current_price * Fin 0.95)%F
      end in
    (support, resistance).

(** The [sma_200] column: a 200-row rolling mean from 200 rows on, a column
    of [None] below. *)
Definition sma_200_column (closes : list float64) : list pyval :=
  if (200 <=? length closes)%nat
  then map PNum (rolling (Nat.min 200 (length closes)) F.mean closes)
  else map (fun _ => PNone) closes.

(** [latest['sma_200'] if 'sma_200' in df.columns and
    pd.notna(latest.get('sma_200')) else None]. *)
Definition latest_sma_200 (col : list pyval) : pyval :=
  match last col with
  | Some (PNum x) => if F.notna x then PNum x else PNone
  | _ => PNone
  end.

(** The body of the [try] block raises nothing on finite bars (pandas and
    NumPy answer NaN or an infinity where Python would raise), so the
    [except] branch is not part of the model. *)
Definition calculate_technical_indicators (df : option (list bar))
  : gmap string pyval :=
  match df with
  | None => _get_default_technical_indicators df
  | Some rows =>
      if (length rows <? 10)%nat then _get_default_technical_indicators df
      else
        let df := sort_values_date rows in
        let n := length df in
        let closes := column close df in
        (* Moving averages *)
        let sma_20 := rolling (Nat.min 20 n) F.mean closes in
        let sma_50 := rolling (Nat.min 50 n) F.mean closes in
        let sma_200 := sma_200_column closes in
        (* RSI calculation *)
        let delta := diff closes in
        let window := Nat.min 14 (n / 3) in
        let rsi :=
          if (2 <=? window)%nat then
            let gain :=
              rolling window F.mean
                (map (fun d => if F.gt d (Fin 0) then d else Fin 0) delta) in
            let loss :=
              rolling window F.mean
                (map (fun d => F.opp (if F.lt d (Fin 0) then d else Fin 0))
                     delta) in
            let rs := zip_with F.div gain loss in
            map (fun r => (Fin 100 - Fin 100 / (Fin 1 + r))%F) rs
          else map (fun _ => Fin 50 : float64) closes in
        (* Bollinger Bands *)
        let bb_window := Nat.min 20 (n / 2) in
        let bb_middle :=
          if (5 <=? bb_window)%nat then rolling bb_window F.mean closes
          else map (fun _ => F.mean closes) closes in
        let bb_std :=
          if (5 <=? bb_window)%nat
          then rolling bb_window (series_std K) closes
          else map (fun _ => series_std K closes) closes in
        let bb_upper :=
          zip_with (fun m s => (m + s * Fin 2)%F) bb_middle bb_std in
        let bb_lower :=
          zip_with (fun m s => (m - s * Fin 2)%F) bb_middle bb_std in
        (* MACD *)
        let macd :=
          if (26 <=? n)%nat
          then Some (zip_with F.sub (ewm_mean K 12 closes)
                                    (ewm_mean K 26 closes))
          else None in
        let macd_signal := ewm_mean K 9 <$> macd in
        let macd_histogram :=
          m ← macd; s ← macd_signal; Some (zip_with F.sub m s) in
        (* Volume indicators *)
        let volumes := column volume df in
        let volume_sma := rolling (Nat.min 20 n) F.mean volumes in
        let volume_ratio := zip_with F.div volumes volume_sma in
        (* Price ranges *)
        let prev_close := shift1 closes in
        let true_range :=
          zip_with F.np_maximum
            (zip_with F.sub (column high df) (column low df))
            (zip_with F.np_maximum
               (map F.abs (zip_with F.sub (column high df) prev_close))
               (map F.abs (zip_with F.sub (column low df) prev_close))) in
        let atr := rolling (Nat.min 14 n) F.mean true_range in
        (* 52-week high/low *)
        let week_52_period := Nat.min 252 n in
        let week_52_high := series_max (tail_rows week_52_period (column high df)) in
        let week_52_low := series_min (tail_rows week_52_period (column low df)) in
        (* Positions and ratios *)
        let current_price := iloc_last closes in
        let bb_range := (iloc_last bb_upper - iloc_last bb_lower)%F in
        let bb_position :=
          if F.gt bb_range (Fin 0)
          then ((current_price - iloc_last bb_lower) / bb_range)%F
          else Fin 0.5 in
        (* Price trend analysis *)
        let trend_strength := _calculate_trend_strength df in
        let support_resistance := _calculate_support_resistance df in
        list_to_map
          [ ("current_price", PNum current_price);
            ("sma_20", PNum (notna_or (iloc_last sma_20) current_price));
            ("sma_50", PNum (notna_or (iloc_last sma_50) current_price));
            ("sma_200", latest_sma_200 sma_200);
            ("rsi", PNum (notna_or (iloc_last rsi) (Fin 50)));
            ("bb_position", PNum bb_position);
            ("bb_upper", PNum (iloc_last bb_upper));
            ("bb_lower", PNum (iloc_last bb_lower));
            ("macd", PNum (default (Fin 0) (iloc_last <$> macd)));
            ("macd_signal", PNum (default (Fin 0) (iloc_last <$> macd_signal)));
            ("macd_histogram",
             PNum (default (Fin 0) (iloc_last <$> macd_histogram)));
            ("volume_ratio", PNum (notna_or (iloc_last volume_ratio) (Fin 1)));
            ("atr", PNum (notna_or (iloc_last atr) (Fin 0)));
            ("52_week_high", PNum week_52_high);
            ("52_week_low", PNum week_52_low);
            ("52_week_position",
             PNum (if negb (F.eqb week_52_high week_52_low)
                   then ((current_price - week_52_low)
                         / (week_52_high - week_52_low))%F
                   else Fin 0.5));
            ("trend_strength", PNum trend_strength);
            ("support_level", PNum support_resistance.1);
            ("resistance_level", PNum support_resistance.2);
            ("volatility",
             PNum (if (10 <? n)%nat
                   then (series_std K (pct_change closes) * sqrt_252 K)%F
                   else Fin 0.3)) ]
  end.

(** ** Performance and risk engine *)

(** The return -> contribution step function of [_calculate_momentum_score]. *)
Definition contribution (period_return weight : float64) : float64 :=
  if F.gt period_return (Fin 0.2) then (Fin 25 * weight)%F
  else if F.gt period_return (Fin 0.1) then (Fin 15 * weight)%F
  else if F.gt period_return (Fin 0.05) then (Fin 10 * weight)%F
  else if F.gt period_return (Fin 0) then (Fin 5 * weight)%F
  else if F.gt period_return (Fin (-0.05)) then (Fin (-5) * weight)%F
  else if F.gt period_return (Fin (-0.1)) then (Fin (-10) * weight)%F
  else (Fin (-20) * weight)%F.

Definition weights : list (string * Q) :=
  [ ("1W", 0.3); ("1M", 0.3); ("3M", 0.2); ("6M", 0.1); ("1Y", 0.1) ].

Definition return_key (period : string) : string := "return_" +:+ period.

Definition _calculate_momentum_score (returns : gmap string float64)
  : float64 :=
  let score :=
    foldl (fun score pw =>
             match returns !! return_key pw.1 with
             | Some period_return =>
                 (score + contribution period_return (Fin pw.2))%F
             | None => score
             end)
          (Fin 50) weights in
  F.py_max (Fin 0) (F.py_min (Fin 100) score).

Definition periods : list (string * nat) :=
  [ ("1W", 5); ("1M", 21); ("3M", 63); ("6M", 126); ("1Y", 252) ]%nat.

(** [s.iloc[-(k)]] for [1 <= k <= len(s)]. *)
Definition iloc_back (k : nat) (xs : list float64) : float64 :=
  default NaN (xs !! (length xs - k)%nat).

Definition period_returns (closes : list float64) : gmap string float64 :=
  let current_price := iloc_last closes in
  foldl (fun returns pd =>
           if (pd.2 <? length closes)%nat then
             let old_price := iloc_back (pd.2 + 1) closes in
             if F.gt old_price (Fin 0)
             then <[ return_key pd.1 :=
                       ((current_price - old_price) / old_price)%F ]> returns
             else returns
           else returns)
        ∅ periods.

(** [(1 + daily_returns).cumprod()] and [s.expanding().max()]. *)
Definition cumprod (xs : list float64) : list float64 :=
  map (fun i => foldl F.mul (Fin 1) (take (S i) xs)) (seq 0 (length xs)).

Definition expanding_max (xs : list float64) : list float64 :=
  map (fun i => series_max (take (S i) xs)) (seq 0 (length xs)).

Definition calculate_performance_metrics (df : option (list bar))
  : gmap string pyval :=
  match df with
  | None => ∅
  | Some df =>
      if (length df <? 10)%nat then ∅
      else
        let closes := column close df in
        (* Returns for different periods *)
        let returns := period_returns closes in
        (* Daily returns for risk metrics *)
        let daily_returns := dropna (pct_change closes) in
        let risk :=
          if (10 <? length daily_returns)%nat then
            let volatility := (series_std K daily_returns * sqrt_252 K)%F in
            let var_95 := series_quantile K 0.05 daily_returns in
            let excess_return :=
              (F.mean daily_returns * Fin 252 - Fin 0.02)%F in
            let sharpe_ratio :=
              if F.gt volatility (Fin 0) then (excess_return / volatility)%F
              else Fin 0 in
            let cumulative_returns :=
              cumprod (map (F.add (Fin 1)) daily_returns) in
            let rolling_max := expanding_max cumulative_returns in
            let drawdown :=
              zip_with (fun c m => ((c - m) / m)%F)
                       cumulative_returns rolling_max in
            let max_drawdown := series_min drawdown in
            let negative_returns :=
              filter (fun r => F.lt r (Fin 0) = true) daily_returns in
            let downside_deviation :=
              if (0 <? length negative_returns)%nat
              then (series_std K negative_returns * sqrt_252 K)%F
              else Fin 0 in
            let sortino_ratio :=
              if F.gt downside_deviation (Fin 0)
              then (excess_return / downside_deviation)%F
              else Fin 0 in
            (volatility, var_95, sharpe_ratio, max_drawdown,
             downside_deviation, sortino_ratio)
          else
            (Fin 0.3, Fin (-0.05), Fin 0, Fin 0, Fin 0.2, Fin 0) in
        let '(volatility, var_95, sharpe_ratio, max_drawdown,
              downside_deviation, sortino_ratio) := risk in
        (* Price momentum *)
        let momentum_score := _calculate_momentum_score returns in
        list_to_map
          [ ("volatility", PNum volatility);
            ("var_95", PNum var_95);
            ("sharpe_ratio", PNum sharpe_ratio);
            ("sortino_ratio", PNum sortino_ratio);
            ("max_drawdown", PNum max_drawdown);
            ("downside_deviation", PNum downside_deviation);
            ("momentum_score", PNum momentum_score) ]
        ∪ (PNum <$> returns)
  end.

(** ** Orchestrator *)

(** The [try] block of [analyze_stock] once price data is there: the two
    engines, then the scoring half. *)
Definition compute_analysis (now : Z) (symbol : string)
    (price_data : list bar)
    (fundamentals : option (gmap string pyval))
    (company_info : option Company.t) : result analysis_result :=
  (* Calculate indicators *)
  let technical := calculate_technical_indicators (Some price_data) in
  let performance := calculate_performance_metrics (Some price_data) in
  score_and_compile now symbol company_info fundamentals technical performance.

(** [analyze_stock]: the result, [None] when there is no price data or when
    the [try] block raised, and the database afterwards. *)
Definition analyze_stock (now : Z) (symbol : string) (db : database)
  : option analysis_result * database :=
  (* Get data from database *)
  let price_data := get_price_data db symbol 252 in
  let fundamentals := get_latest_fundamentals db symbol in
  let company_info := get_company db symbol in
  match price_data with
  | None | Some [] => (None, db)
  | Some rows =>
      match compute_analysis now symbol rows fundamentals company_info with
      | Ok analysis_result =>
          (* Save to database *)
          (Some analysis_result, save_analysis_result now analysis_result db)
      | Raise _ => (None, db)
      end
  end.

End Engines.

(** ** The sample inputs of the worked examples *)

(** Five trading days of one symbol. *)
Definition sample_bars_5 : list bar :=
  [ {| date := 1; open := 100; high := 102; low := 99; close := 101;
       adj_close := 101; volume := 1000 |};
    {| date := 2; open := 101; high := 103; low := 100; close := 102;
       adj_close := 102; volume := 1100 |};
    {| date := 3; open := 102; high := 104; low := 101; close := 103;
       adj_close := 103; volume := 900 |};
    {| date := 4; open := 103; high := 105; low := 102; close := 104;
       adj_close := 104; volume := 1200 |};
    {| date := 5; open := 104; high := 106; low := 103; close := 105;
       adj_close := 105; volume := 1000 |} ].

Definition sample_technical : gmap string pyval :=
  _get_default_technical_indicators (Some sample_bars_5).

(** * Properties *)

(** ** The [result] monad *)

Lemma bind_Ok {A B : Type} (m : result A) (f : A → result B) (b : B) :
  m ≫= f = Ok b → ∃ a, m = Ok a ∧ f a = Ok b.
Proof. destruct m as [a|e]; [eauto | discriminate]. Qed.

Lemma ret_Ok {A : Type} (a b : A) : (mret a : result A) = Ok b → a = b.
Proof. by intros [= ->]. Qed.

Ltac inv_result :=
  repeat match goal with
         | H : _ ≫= _ = Ok _ |- _ =>
             let a := fresh "r" in
             let E := fresh "E" in
             apply bind_Ok in H as (a & E & H)
         | H : mret _ = Ok _ |- _ => apply ret_Ok in H
         | H : Ok _ = Ok _ |- _ => injection H as H
         | H : Raise _ = Ok _ |- _ => discriminate H
         end.

(** ** Every factor stays within its share of the points *)

Ltac factor_bound := repeat case_match; simpl; lia.

Lemma pe_factor_bound v : (0 <= (pe_factor v).1 <= 8)%Z.
Proof. unfold pe_factor. factor_bound. Qed.
Lemma pb_factor_bound v : (0 <= (pb_factor v).1 <= 4)%Z.
Proof. unfold pb_factor. factor_bound. Qed.
Lemma peg_factor_bound v : (0 <= (peg_factor v).1 <= 3)%Z.
Proof. unfold peg_factor. factor_bound. Qed.
Lemma roe_factor_bound v : (0 <= (roe_factor v).1 <= 8)%Z.
Proof. unfold roe_factor. factor_bound. Qed.
Lemma margin_factor_bound v : (0 <= (margin_factor v).1 <= 4)%Z.
Proof. unfold margin_factor. factor_bound. Qed.
Lemma growth_factor_bound v : (0 <= (growth_factor v).1 <= 3)%Z.
Proof. unfold growth_factor. factor_bound. Qed.
Lemma debt_factor_bound v : (0 <= (debt_factor v).1 <= 5)%Z.
Proof. unfold debt_factor. factor_bound. Qed.
Lemma dividend_factor_bound v : (0 <= (dividend_factor v).1 <= 3)%Z.
Proof. unfold dividend_factor. factor_bound. Qed.
Lemma payout_factor_bound v : (0 <= (payout_factor v).1 <= 2)%Z.
Proof. unfold payout_factor. factor_bound. Qed.

Lemma score_fundamental_health_bound f :
  (0 <= (score_fundamental_health f).1 <= 40)%Z.
Proof.
  unfold score_fundamental_health. destruct (nonempty f) as [m|]; simpl; [|lia].
  pose proof (pe_factor_bound (get m "pe_ratio")).
  pose proof (pb_factor_bound (get m "price_to_book")).
  pose proof (peg_factor_bound (get m "peg_ratio")).
  pose proof (roe_factor_bound (get m "roe")).
  pose proof (margin_factor_bound (get m "profit_margin")).
  pose proof (growth_factor_bound (get m "revenue_growth")).
  pose proof (debt_factor_bound (get m "debt_to_equity")).
  pose proof (dividend_factor_bound (get m "dividend_yield")).
  pose proof (payout_factor_bound (get m "payout_ratio")).
  lia.
Qed.

Lemma sma_20_factor_bound c s p :
  sma_20_factor c s = Ok p → (0 <= p.1 <= 3)%Z.
Proof. unfold sma_20_factor. intros H. inv_result. subst. factor_bound. Qed.
Lemma sma_50_factor_bound c s p :
  sma_50_factor c s = Ok p → (0 <= p.1 <= 4)%Z.
Proof. unfold sma_50_factor. intros H. inv_result. subst. factor_bound. Qed.
Lemma sma_200_factor_bound c s p :
  sma_200_factor c s = Ok p → (0 <= p.1 <= 5)%Z.
Proof. unfold sma_200_factor. intros H. inv_result. subst. factor_bound. Qed.
Lemma ma_alignment_factor_bound a b p :
  ma_alignment_factor a b = Ok p → (0 <= p.1 <= 3)%Z.
Proof. unfold ma_alignment_factor. intros H. inv_result. subst. factor_bound. Qed.
Lemma rsi_factor_bound v : (0 <= (rsi_factor v).1 <= 3)%Z.
Proof. unfold rsi_factor. factor_bound. Qed.
Lemma macd_factor_bound a b p :
  macd_factor a b = Ok p → (0 <= p.1 <= 2)%Z.
Proof. unfold macd_factor. intros H. inv_result. subst. factor_bound. Qed.
Lemma volume_factor_bound v p :
  volume_factor v = Ok p → (0 <= p.1 <= 2)%Z.
Proof. unfold volume_factor. intros H. inv_result. subst. factor_bound. Qed.
Lemma bb_factor_bound v : (0 <= (bb_factor v).1 <= 3)%Z.
Proof. unfold bb_factor. factor_bound. Qed.
Lemma position_factor_bound v : (0 <= (position_factor v).1 <= 5)%Z.
Proof. unfold position_factor. factor_bound. Qed.

Lemma score_technical_strength_bound t s bd :
  score_technical_strength t = Ok (s, bd) → (0 <= s <= 30)%Z.
Proof.
  unfold score_technical_strength. destruct (nonempty t) as [m|].
  2:{ intros H. inv_result. injection H as <- <-. lia. }
  intros H. inv_result. injection H as <- <-.
  repeat match goal with
         | E : sma_20_factor _ _ = Ok _ |- _ => apply sma_20_factor_bound in E
         | E : sma_50_factor _ _ = Ok _ |- _ => apply sma_50_factor_bound in E
         | E : sma_200_factor _ _ = Ok _ |- _ => apply sma_200_factor_bound in E
         | E : ma_alignment_factor _ _ = Ok _ |- _ =>
             apply ma_alignment_factor_bound in E
         | E : macd_factor _ _ = Ok _ |- _ => apply macd_factor_bound in E
         | E : volume_factor _ = Ok _ |- _ => apply volume_factor_bound in E
         end.
  pose proof (rsi_factor_bound (get m "rsi")).
  pose proof (bb_factor_bound (get m "bb_position")).
  pose proof (position_factor_bound (get m "52_week_position")).
  lia.
Qed.

Lemma count_positive_bound rs :
  (0 <= count_positive rs <= Z.of_nat (length rs))%Z.
Proof. induction rs as [|r rs IH]; simpl; [lia | case_match; lia]. Qed.

Lemma not_none_length rs : (length (not_none rs) <= length rs)%nat.
Proof. induction rs as [|[|x] rs IH]; simpl; lia. Qed.

Lemma perf_1m_factor_bound v : (0 <= (perf_1m_factor v).1 <= 3)%Z.
Proof. unfold perf_1m_factor. factor_bound. Qed.
Lemma perf_1y_factor_bound v : (0 <= (perf_1y_factor v).1 <= 4)%Z.
Proof. unfold perf_1y_factor. factor_bound. Qed.
Lemma sharpe_factor_bound v p :
  sharpe_factor v = Ok p → (0 <= p.1 <= 6)%Z.
Proof. unfold sharpe_factor. intros H. inv_result. subst. factor_bound. Qed.
Lemma sortino_factor_bound v p :
  sortino_factor v = Ok p → (0 <= p.1 <= 2)%Z.
Proof. unfold sortino_factor. intros H. inv_result. subst. factor_bound. Qed.
Lemma volatility_factor_bound v p :
  volatility_factor v = Ok p → (0 <= p.1 <= 2)%Z.
Proof. unfold volatility_factor. intros H. inv_result. subst. factor_bound. Qed.
Lemma drawdown_factor_bound v p :
  drawdown_factor v = Ok p → (0 <= p.1 <= 3)%Z.
Proof. unfold drawdown_factor. intros H. inv_result. subst. factor_bound. Qed.

Lemma score_momentum_quality_bound p s bd :
  score_momentum_quality p = Ok (s, bd) → (0 <= s <= 30)%Z.
Proof.
  unfold score_momentum_quality. destruct (nonempty p) as [m|].
  2:{ intros H. inv_result. injection H as <- <-. lia. }
  intros H. inv_result. injection H as <- <-.
  repeat match goal with
         | E : sharpe_factor _ = Ok _ |- _ => apply sharpe_factor_bound in E
         | E : sortino_factor _ = Ok _ |- _ => apply sortino_factor_bound in E
         | E : volatility_factor _ = Ok _ |- _ =>
             apply volatility_factor_bound in E
         | E : drawdown_factor _ = Ok _ |- _ => apply drawdown_factor_bound in E
         end.
  pose proof (perf_1m_factor_bound (get_or m "return_1M" (PNum (Fin 0)))).
  pose proof (perf_1y_factor_bound (get_or m "return_1Y" (PNum (Fin 0)))).
  match goal with
  | |- context [count_positive ?l] =>
      pose proof (count_positive_bound l); pose proof (not_none_length
        [get_or m "return_1W" (PNum (Fin 0)); get_or m "return_1M" (PNum (Fin 0));
         get_or m "return_3M" (PNum (Fin 0)); get_or m "return_1Y" (PNum (Fin 0))])
  end.
  simpl length in *. lia.
Qed.

(** ** Risk components *)

Lemma volatility_risk_bound v z : volatility_risk v = Ok z → (5 <= z <= 30)%Z.
Proof. unfold volatility_risk. intros H. inv_result. subst. factor_bound. Qed.
Lemma beta_risk_bound v z : beta_risk v = Ok z → (5 <= z <= 20)%Z.
Proof. unfold beta_risk. intros H. inv_result. subst. factor_bound. Qed.
Lemma leverage_risk_bound v : (0 <= leverage_risk v <= 25)%Z.
Proof. unfold leverage_risk. factor_bound. Qed.
Lemma technical_risk_bound a b z :
  technical_risk a b = Ok z → (0 <= z <= 15)%Z.
Proof. unfold technical_risk. intros H. inv_result. subst. factor_bound. Qed.
Lemma drawdown_risk_bound v z : drawdown_risk v = Ok z → (0 <= z <= 10)%Z.
Proof. unfold drawdown_risk. intros H. inv_result. subst. factor_bound. Qed.

(** ** Claims *)

(** C1. For every combination of fundamentals, technical indicators and
    performance metrics on which the scoring half of the analysis returns,
    the total score is exactly the sum of the fundamental, technical and
    momentum sub-scores; each of these is what its scorer returned, already
    clamped to 40, 30 and 30; so the total lies between 0 and 100. *)
Theorem total_score_is_clamped_sum
    (now : Z) (sym : string) (company_info : option Company.t)
    (fund : option (gmap string pyval)) (tech perf : gmap string pyval)
    (r : analysis_result) :
  score_and_compile now sym company_info fund tech perf = Ok r →
  total_score r
    = (fundamental_score r + technical_score r + momentum_score r)%Z
  ∧ fundamental_score r = (score_fundamental_health fund).1
  ∧ score_technical_strength (Some tech)
      = Ok (technical_score r, bd_technical (breakdowns r))
  ∧ score_momentum_quality (Some perf)
      = Ok (momentum_score r, bd_momentum (breakdowns r))
  ∧ (0 <= fundamental_score r <= 40)%Z
  ∧ (0 <= technical_score r <= 30)%Z
  ∧ (0 <= momentum_score r <= 30)%Z
  ∧ (0 <= total_score r <= 100)%Z.
Proof.
  unfold score_and_compile.
  pose proof (score_fundamental_health_bound fund) as Hf.
  destruct (score_fundamental_health fund) as [f fbd]. simpl in Hf.
  intros H.
  apply bind_Ok in H as ([t tbd] & Et & H).
  apply bind_Ok in H as ([m mbd] & Em & H).
  apply bind_Ok in H as ([k kbd] & Ek & H).
  apply bind_Ok in H as (p & Ep & H).
  apply ret_Ok in H. subst r. simpl. unfold py_int.
  pose proof (score_technical_strength_bound _ _ _ Et).
  pose proof (score_momentum_quality_bound _ _ _ Em).
  repeat split; auto; lia.
Qed.

Lemma total_score_is_clamped_sum_witness :
  ∃ r, score_and_compile 0 "RY.TO" None None sample_technical ∅ = Ok r
       ∧ total_score r
         = (fundamental_score r + technical_score r + momentum_score r)%Z
       ∧ (0 <= total_score r <= 100)%Z.
Proof.
  destruct (score_and_compile 0 "RY.TO" None None sample_technical ∅)
    as [r|e] eqn:E; [|vm_compute in E; discriminate E].
  exists r. split; [reflexivity|].
  destruct (total_score_is_clamped_sum _ _ _ _ _ _ _ E)
    as (Hsum & _ & _ & _ & _ & _ & _ & Hrange).
  split; assumption.
Defined.

(** C3. With the risk score and the upside fixed, a higher total score never
    gets a lower-ranked recommendation. *)
Theorem recommendation_monotone (t1 t2 risk : Z) (upside : float64) :
  (t1 <= t2)%Z →
  (rank (get_investment_recommendation t1 risk upside)
   <= rank (get_investment_recommendation t2 risk upside))%Z.
Proof.
  intros Ht. unfold get_investment_recommendation.
  destruct (F.gt upside (Fin 0.15)), (F.gt upside (Fin 0.10));
  destruct (Z.ltb_spec risk 40), (Z.ltb_spec risk 50),
    (Z.ltb_spec risk 60), (Z.ltb_spec risk 70); try lia;
  destruct (Z.leb_spec 80 t1), (Z.leb_spec 80 t2); try lia;
  destruct (Z.leb_spec 70 t1), (Z.leb_spec 70 t2); try lia;
  destruct (Z.leb_spec 60 t1), (Z.leb_spec 60 t2); try lia;
  destruct (Z.leb_spec 50 t1), (Z.leb_spec 50 t2); try lia;
  destruct (Z.leb_spec 40 t1), (Z.leb_spec 40 t2); try lia;
  destruct (Z.leb_spec 30 t1), (Z.leb_spec 30 t2); simpl; lia.
Qed.

Lemma recommendation_monotone_witness :
  (55 <= 85)%Z
  ∧ get_investment_recommendation 55 30 (Fin 0.2) = HOLD
  ∧ get_investment_recommendation 85 30 (Fin 0.2) = STRONG_BUY
  ∧ (rank (get_investment_recommendation 55 30 (Fin 0.2))
     <= rank (get_investment_recommendation 85 30 (Fin 0.2)))%Z.
Proof.
  assert (H : (55 <= 85)%Z) by lia.
  split; [exact H|]. split; [reflexivity|]. split; [reflexivity|].
  exact (recommendation_monotone 55 85 30 (Fin 0.2) H).
Defined.

(** C10. Whatever the technical, performance and fundamentals inputs, a
    risk score that [calculate_risk_score] returns is the sum, capped at
    100, of a volatility component of at least 5, a beta component of at
    least 5 and three non-negative components; it lies between 10 and
    100. *)
Theorem risk_score_range
    (tech perf fund : option (gmap string pyval)) (r : Z) (bd : breakdown) :
  calculate_risk_score tech perf fund = Ok (r, bd) →
  ∃ vol beta lev tec dd : Z,
    bd = [ ("volatility_risk", BInt vol); ("beta_risk", BInt beta);
           ("leverage_risk", BInt lev); ("technical_risk", BInt tec);
           ("drawdown_risk", BInt dd) ]
    ∧ (5 <= vol)%Z ∧ (5 <= beta)%Z
    ∧ (0 <= lev)%Z ∧ (0 <= tec)%Z ∧ (0 <= dd)%Z
    ∧ r = Z.min 100 (vol + beta + lev + tec + dd)
    ∧ (10 <= r <= 100)%Z.
Proof.
  unfold calculate_risk_score. intros H.
  apply bind_Ok in H as (v & Ev & H).
  apply bind_Ok in H as (vol & Evol & H).
  apply bind_Ok in H as (beta & Ebeta & H).
  apply bind_Ok in H as (tec & Etec & H).
  apply bind_Ok in H as (dd & Edd & H).
  apply ret_Ok in H. injection H as <- <-.
  apply volatility_risk_bound in Evol. apply beta_risk_bound in Ebeta.
  apply technical_risk_bound in Etec. apply drawdown_risk_bound in Edd.
  pose proof (leverage_risk_bound (get_if fund "debt_to_equity" PNone)).
  eexists vol, beta, _, tec, dd. split; [reflexivity|]. lia.
Qed.

Lemma risk_score_range_witness :
  calculate_risk_score None (Some ∅) None
    = Ok (25%Z, [ ("volatility_risk", BInt 10); ("beta_risk", BInt 5);
                  ("leverage_risk", BInt 10); ("technical_risk", BInt 0);
                  ("drawdown_risk", BInt 0) ])
  ∧ (10 <= 25 <= 100)%Z.
Proof.
  assert (E : calculate_risk_score None (Some ∅) None
    = Ok (25%Z, [ ("volatility_risk", BInt 10); ("beta_risk", BInt 5);
                  ("leverage_risk", BInt 10); ("technical_risk", BInt 0);
                  ("drawdown_risk", BInt 0) ])) by (vm_compute; reflexivity).
  split; [exact E|].
  destruct (risk_score_range _ _ _ _ _ E) as (? & ? & ? & ? & ? & _ & _ & _ & _ & _ & _ & _ & Hr).
  exact Hr.
Defined.
